(** * rsearch Python integration example: [search_products]

    A shallow embedding of [examples/python/search.py].  The function
    talks to two collaborators, the [requests] HTTP client and the
    [psycopg2] PostgreSQL driver.  Both are represented by a [World]
    giving the answer of every library call; the function itself is a
    computation in a small exception-and-trace monad, so that what it
    returns or raises and the calls it makes on the way are both
    observable. *)

From Stdlib Require Import Ascii String.
From stdpp Require Import base option list strings pretty gmap fin_maps fin_sets.

Set Warnings "-register-all,-clear-no-such-hyp".
Open Scope string_scope.
Open Scope list_scope.

(** ** Python values *)

(** The values that travel through the function: decoded JSON bodies,
    bind parameters and result-set cells.  A [float] and any other
    object (a [Decimal], a [datetime]) is kept as its printed form; a
    [dict] is the list of its items, whose keys are distinct. *)
Inductive pyval : Type :=
  | PNone
  | PBool (b : bool)
  | PInt (z : Z)
  | PFloat (repr : string)
  | PStr (s : string)
  | PList (l : list pyval)
  | PDict (d : list (string * pyval))
  | PObj (repr : string).

(** ** Exceptions *)

(** Classes under [requests.exceptions.RequestException]. *)
Inductive requests_exc : Type :=
  | HTTPError | ConnectionError | Timeout | TooManyRedirects
  | JSONDecodeError | RequestException.

(** Classes under [psycopg2.Error]. *)
Inductive psycopg2_exc : Type :=
  | OperationalError | ProgrammingError | DataError | IntegrityError
  | InternalError | InterfaceError | DatabaseError | Error.

Inductive exn_class : Type :=
  | Requests (c : requests_exc)
  | Psycopg2 (c : psycopg2_exc)
  | KeyError | TypeError | IndexError | ValueError | Exception.

Record exn : Type := mkExn { exn_class_of : exn_class; exn_str : string }.

(** [isinstance(e, requests.exceptions.RequestException)] *)
Definition isinstance_RequestException (e : exn) : bool :=
  match exn_class_of e with Requests _ => true | _ => false end.

(** [isinstance(e, psycopg2.Error)] *)
Definition isinstance_psycopg2_Error (e : exn) : bool :=
  match exn_class_of e with Psycopg2 _ => true | _ => false end.

(** ** The collaborators *)

(** A [requests.Response]: its status code, reason phrase (as text)
    and URL, and what [.json()] gives, the decoded body or the
    exception raised while decoding. *)
Record Response : Type := mkResponse {
  status_code : Z;
  resp_reason : string;
  resp_url : string;
  resp_json : exn + pyval
}.

(** [Response.raise_for_status()] of the requests library: an
    [HTTPError] for a 4xx or 5xx status, nothing otherwise. *)
Definition raise_for_status (r : Response) : exn + unit :=
  if bool_decide (400 ≤ status_code r < 500)%Z then
    inl (mkExn (Requests HTTPError)
           (pretty (status_code r) +:+ " Client Error: " +:+ resp_reason r
            +:+ " for url: " +:+ resp_url r))
  else if bool_decide (500 ≤ status_code r < 600)%Z then
    inl (mkExn (Requests HTTPError)
           (pretty (status_code r) +:+ " Server Error: " +:+ resp_reason r
            +:+ " for url: " +:+ resp_url r))
  else inr tt.

(** One entry of [cursor.description]; [desc[0]] is the column name. *)
Record Column : Type := mkColumn { col_name : string; col_type_code : Z }.

(** What a cursor holds after a statement ran: the column metadata
    ([None] when the statement produced no result set) and what
    [fetchall()] gives. *)
Record ResultSet : Type := mkResultSet {
  rs_description : option (list Column);
  rs_fetchall : exn + list (list pyval)
}.

Record Cursor : Type := mkCursor {
  cur_execute : string → pyval → exn + ResultSet;
  cur_close : exn + unit
}.

Record Connection : Type := mkConnection {
  conn_cursor : exn + Cursor;
  conn_close : exn + unit
}.

Record DbConfig : Type := mkDbConfig {
  host : string; port : Z; database : string; user : string; password : string
}.

Record World : Type := mkWorld {
  (** [os.getenv('RSEARCH_URL')] *)
  getenv_RSEARCH_URL : option string;
  (** [requests.post(url, json=body)] *)
  requests_post : string → pyval → exn + Response;
  (** [psycopg2.connect] called with the configuration as keywords *)
  psycopg2_connect : DbConfig → exn + Connection
}.

(** ** Observable actions *)

Inductive call : Type :=
  | Post (url : string) (body : pyval)
  | RaiseForStatus
  | Json
  | Connect (cfg : DbConfig)
  | MkCursor
  | Execute (sql : string) (params : pyval)
  | Fetchall
  | CursorClose
  | ConnClose.

(** A library call with whether it returned ([true]) or raised, a line
    written by [print], or a read of [cur.description]. *)
Inductive event : Type :=
  | EvCall (c : call) (ok : bool)
  | EvPrint (line : string)
  | EvReadDescription.

(** ** Exceptions and trace as a monad *)

Inductive outcome (A : Type) : Type :=
  | Return (a : A)
  | Raise (e : exn).
Arguments Return {A} a.
Arguments Raise {A} e.

Definition M (A : Type) : Type := outcome A * list event.

Definition raise {A} (e : exn) : M A := (Raise e, []).
Definition emit (ev : event) : M unit := (Return tt, [ev]).

(** A library call: the call is recorded, then its answer is returned
    or its exception raised. *)
Definition lib {A} (c : call) (r : exn + A) : M A :=
  match r with
  | inl e => (Raise e, [EvCall c false])
  | inr a => (Return a, [EvCall c true])
  end.

Global Instance M_ret : MRet M := λ A a, (Return a, []).
Global Instance M_bind : MBind M := λ A B f m,
  match m with
  | (Return a, t) => let '(o, t') := f a in (o, t ++ t')
  | (Raise e, t) => (Raise e, t)
  end.

(** [try: m  except C1 as e: h1  except C2 as e: h2]: the first clause
    whose class test accepts the exception runs; with none the
    exception goes on to the caller. *)
Definition try_except {A} (m : M A) (clauses : list ((exn → bool) * (exn → M A))) : M A :=
  match m with
  | (Return a, t) => (Return a, t)
  | (Raise e, t) =>
      match find (λ cl, cl.1 e) clauses with
      | Some cl => let '(o, t') := cl.2 e in (o, t ++ t')
      | None => (Raise e, t)
      end
  end.

Definition result {A} (m : M A) : outcome A := m.1.
Definition trace {A} (m : M A) : list event := m.2.

(** ** Language primitives used by the function *)

(** An operation of the interpreter itself: no library call is made. *)
Definition py {A} (r : exn + A) : M A :=
  match r with
  | inl e => raise e
  | inr a => mret a
  end.

(** [v[key]] with a string key: a [dict] looks the key up and raises
    [KeyError] when it is absent; no other value of [pyval] accepts a
    string subscript (messages as CPython 3.11 words them). *)
Definition getitem (v : pyval) (key : string) : exn + pyval :=
  match v with
  | PDict d =>
      match (list_to_map d : gmap string pyval) !! key with
      | Some x => inr x
      | None => inl (mkExn KeyError ("'" +:+ key +:+ "'"))
      end
  | PList _ => inl (mkExn TypeError "list indices must be integers or slices, not str")
  | PStr _ => inl (mkExn TypeError "string indices must be integers, not 'str'")
  | PNone => inl (mkExn TypeError "'NoneType' object is not subscriptable")
  | PBool _ => inl (mkExn TypeError "'bool' object is not subscriptable")
  | PInt _ => inl (mkExn TypeError "'int' object is not subscriptable")
  | PFloat _ => inl (mkExn TypeError "'float' object is not subscriptable")
  | PObj _ => inl (mkExn TypeError "object is not subscriptable")
  end.

(** A result record, [dict(zip(columns, row))]: [zip] stops at the
    shorter of the two and [dict] takes the pairs from left to right, a
    later pair replacing an earlier one with the same key. *)
Definition dict_set (d : gmap string pyval) (kv : string * pyval) : gmap string pyval :=
  <[kv.1 := kv.2]> d.

Definition dict_of_pairs (ps : list (string * pyval)) : gmap string pyval :=
  foldl dict_set ∅ ps.

Definition dict_zip (columns : list string) (row : list pyval) : gmap string pyval :=
  dict_of_pairs (zip columns row).

(** ** Module constants *)

Definition RSEARCH_URL (w : World) : string :=
  default "http://localhost:8080" (getenv_RSEARCH_URL w).

Definition DB_CONFIG : DbConfig :=
  {| host := "localhost"; port := 5432; database := "rsearch_test";
     user := "rsearch"; password := "rsearch123" |}.

Definition sql_template : string := "SELECT * FROM products WHERE ".

Section SearchProducts.

(** Python's [str()] on a value that is not itself a [str]: how an
    f-string renders such a value.  The function never inspects the
    rendering, so it is left to the interpreter. *)
Variable py_str : pyval → string.

(** [f'{v}'] *)
Definition format (v : pyval) : string :=
  match v with
  | PStr s => s
  | _ => py_str v
  end.

Definition translate_url (w : World) : string :=
  RSEARCH_URL w +:+ "/api/v1/translate".

Definition request_body (user_query : string) : pyval :=
  PDict [("schema", PStr "products");
         ("database", PStr "postgres");
         ("query", PStr user_query)].

(** [columns = [desc[0] for desc in cur.description]] *)
(** [[desc[0] for desc in cur.description]]; iterating over [None]
    is a [TypeError]. *)
Definition column_names (description : option (list Column)) : exn + list string :=
  match description with
  | Some ds => inr (col_name <$> ds)
  | None => inl (mkExn TypeError "'NoneType' object is not iterable")
  end.

(** The body of the [try] block, lines 36 to 66. *)
Definition search_body (w : World) (user_query : string)
  : M (list (gmap string pyval)) :=
  response ← lib (Post (translate_url w) (request_body user_query))
                 (requests_post w (translate_url w) (request_body user_query));
  _ ← lib RaiseForStatus (raise_for_status response);
  translation ← lib Json (resp_json response);
  _ ← emit (EvPrint ("Query: " +:+ user_query));
  wc ← py (getitem translation "whereClause");
  _ ← emit (EvPrint ("SQL: " +:+ format wc));
  ps ← py (getitem translation "parameters");
  _ ← emit (EvPrint ("Params: " +:+ format ps));
  _ ← emit (EvPrint "---");
  conn ← lib (Connect DB_CONFIG) (psycopg2_connect w DB_CONFIG);
  cur ← lib MkCursor (conn_cursor conn);
  wc' ← py (getitem translation "whereClause");
  let sql := sql_template +:+ format wc' in
  ps' ← py (getitem translation "parameters");
  rset ← lib (Execute sql ps') (cur_execute cur sql ps');
  _ ← emit EvReadDescription;
  columns ← py (column_names (rs_description rset));
  rows ← lib Fetchall (rs_fetchall rset);
  let results := dict_zip columns <$> rows in
  _ ← lib CursorClose (cur_close cur);
  _ ← lib ConnClose (conn_close conn);
  mret results.

(** The two [except] clauses: each prints and re-raises. *)
Definition on_request_exception {A} (e : exn) : M A :=
  _ ← emit (EvPrint ("rsearch error: " +:+ exn_str e));
  raise e.

Definition on_database_error {A} (e : exn) : M A :=
  _ ← emit (EvPrint ("Database error: " +:+ exn_str e));
  raise e.

Definition search_products (w : World) (user_query : string)
  : M (list (gmap string pyval)) :=
  try_except (search_body w user_query)
    [ (isinstance_RequestException, on_request_exception);
      (isinstance_psycopg2_Error, on_database_error) ].

End SearchProducts.

(** ** The driver, [main] *)

Definition newline : string := String (Ascii.ascii_of_nat 10) "".

(** The titles and queries [main] goes through, in order. *)
Definition examples : list (string * string) :=
  [ ("Simple field search", "productCode:13w42");
    ("Boolean AND", "productCode:13w42 AND region:ca");
    ("Range query", "rodLength:[50 TO 200]");
    ("Comparison operator", "price:>=100");
    ("Complex query", "(region:ca OR region:ny) AND price:<150");
    ("Wildcard search", "name:Widget*") ].

(** [product[key]] on a result record. *)
Definition record_getitem (product : gmap string pyval) (key : string) : exn + pyval :=
  match product !! key with
  | Some v => inr v
  | None => inl (mkExn KeyError ("'" +:+ key +:+ "'"))
  end.

(** [for x in l: body(x)] *)
Fixpoint for_each {A} (l : list A) (body : A → M unit) : M unit :=
  match l with
  | [] => mret tt
  | x :: l' => _ ← body x; for_each l' body
  end.

Section Main.

Variable py_str : pyval → string.

(** [except Exception as e: print(f'Error: {e}')]; every class of
    [exn_class] is under [Exception]. *)
Definition on_exception (e : exn) : M unit :=
  emit (EvPrint ("Error: " +:+ exn_str e)).

(** The [try] block of one turn of the loop, lines 91 to 97. *)
Definition show_results (w : World) (query : string) : M unit :=
  results ← search_products py_str w query;
  _ ← emit (EvPrint ("Found " +:+ pretty (length results) +:+ " products"));
  match results with
  | [] => mret tt
  | product :: _ =>
      name ← py (record_getitem product "name");
      code ← py (record_getitem product "product_code");
      price ← py (record_getitem product "price");
      emit (EvPrint ("  - " +:+ format py_str name +:+ " (" +:+ format py_str code
                     +:+ ") - $" +:+ format py_str price))
  end.

(** One turn of the loop, lines 89 to 100. *)
Definition run_example (w : World) (ex : string * string) : M unit :=
  _ ← emit (EvPrint (newline +:+ "=== Example: " +:+ ex.1 +:+ " ==="));
  try_except (show_results w ex.2) [ (λ _, true, on_exception) ].

(** The collaborators answer every turn of the loop through the same
    [World], as functions of what they are called with. *)
Definition main (w : World) : M unit :=
  for_each examples (run_example w).

End Main.

(** ** Concrete collaborators *)

(** [repr] of a [str] of ASCII characters: single quotes, or double
    quotes when the text holds a single quote and no double quote;
    the backslash, the quote in use, newline, carriage return and tab
    are escaped, other control characters are written in hexadecimal. *)
Definition double_quote : string := String (Ascii.ascii_of_nat 34) "".

Definition hex_digit (n : nat) : string :=
  String (if Nat.ltb n 10 then Ascii.ascii_of_nat (48 + n)
          else Ascii.ascii_of_nat (87 + n)) "".

Fixpoint escape_chars (quote : Ascii.ascii) (s : string) : string :=
  match s with
  | EmptyString => ""
  | String c r =>
      let n := Ascii.nat_of_ascii c in
      (if Ascii.eqb c "\"%char then "\\"
       else if Ascii.eqb c quote then String "\"%char (String c "")
       else if Nat.eqb n 10 then "\n"
       else if Nat.eqb n 13 then "\r"
       else if Nat.eqb n 9 then "\t"
       else if Nat.ltb n 32 || Nat.eqb n 127 then
         "\x" +:+ hex_digit (n / 16) +:+ hex_digit (n mod 16)
       else String c "") +:+ escape_chars quote r
  end.

Fixpoint has_char (c : Ascii.ascii) (s : string) : bool :=
  match s with
  | EmptyString => false
  | String d r => Ascii.eqb c d || has_char c r
  end.

Definition repr_str (s : string) : string :=
  if has_char "'"%char s && negb (has_char (Ascii.ascii_of_nat 34) s) then
    double_quote +:+ escape_chars (Ascii.ascii_of_nat 34) s +:+ double_quote
  else "'" +:+ escape_chars "'"%char s +:+ "'".

(** A rendering for [py_str]: [str()] of a value, with the members of a
    list or dict shown by their [repr]. *)
Fixpoint py_str_plain (v : pyval) : string :=
  let quoted v :=
    match v with
    | PStr s => repr_str s
    | _ => py_str_plain v
    end in
  match v with
  | PNone => "None"
  | PBool true => "True"
  | PBool false => "False"
  | PInt z => pretty z
  | PFloat r => r
  | PStr s => s
  | PList l => "[" +:+ String.concat ", " (map quoted l) +:+ "]"
  | PDict d =>
      "{" +:+ String.concat ", "
                (map (λ kv, repr_str kv.1 +:+ ": " +:+ quoted kv.2) d) +:+ "}"
  | PObj r => r
  end.


(** A response from the translate endpoint of the default URL. *)
Definition response (status : Z) (reason : string) (body : exn + pyval) : Response :=
  mkResponse status reason "http://localhost:8080/api/v1/translate" body.

Definition products_columns : list Column :=
  [ mkColumn "id" 23; mkColumn "product_code" 1043;
    mkColumn "name" 1043; mkColumn "price" 1700 ].

Definition products_rows : list (list pyval) :=
  [ [PInt 1; PStr "13w42"; PStr "Widget"; PObj "99.50"];
    [PInt 7; PStr "13w42"; PStr "Widget Pro"; PObj "149.00"] ].

(** A store that answers every statement with the given result set. *)
Definition store (rset : exn + ResultSet) : exn + Connection :=
  inr {| conn_cursor := inr {| cur_execute := λ _ _, rset; cur_close := inr tt |};
         conn_close := inr tt |}.

Definition world (resp : exn + Response) (db : exn + Connection) : World :=
  {| getenv_RSEARCH_URL := None;
     requests_post := λ _ _, resp;
     psycopg2_connect := λ _, db |}.

Definition predicate (wc : string) (params : list pyval) : pyval :=
  PDict [("whereClause", PStr wc); ("parameters", PList params)].

Definition products_result : ResultSet :=
  {| rs_description := Some products_columns; rs_fetchall := inr products_rows |}.

(** [productCode:13w42] against a store holding two such products. *)
Definition world_products : World :=
  world (inr (response 200 "OK" (inr (predicate "product_code = %s" [PStr "13w42"]))))
        (store (inr products_result)).

(** The translation service answers 500. *)
Definition world_http_500 : World :=
  world (inr (response 500 "Internal Server Error" (inl (mkExn (Requests JSONDecodeError) "Expecting value"))))
        (store (inr products_result)).

(** The translation service cannot be reached. *)
Definition world_unreachable : World :=
  world (inl (mkExn (Requests ConnectionError) "Connection refused"))
        (store (inr products_result)).

(** A 300 answer that carries a complete predicate. *)
Definition world_status_300 : World :=
  world (inr (response 300 "Multiple Choices" (inr (predicate "product_code = %s" [PStr "13w42"]))))
        (store (inr products_result)).

(** A 200 answer whose body lacks [parameters]. *)
Definition response_without_parameters : Response :=
  response 200 "OK" (inr (PDict [("whereClause", PStr "price >= %s")])).

Definition world_no_parameters : World :=
  world (inr response_without_parameters) (store (inr products_result)).

(** A 200 answer whose body is an empty object. *)
Definition world_empty_object : World :=
  world (inr (response 200 "OK" (inr (PDict []))))
        (store (inr products_result)).

(** The store rejects the statement: unknown column. *)
Definition world_unknown_column : World :=
  world (inr (response 200 "OK" (inr (predicate "colour = %s" [PStr "red"]))))
        (store (inl (mkExn (Psycopg2 ProgrammingError)
                       "column colour does not exist"))).


(** The store holds no matching product. *)
Definition world_no_match : World :=
  world (inr (response 200 "OK" (inr (predicate "product_code = %s" [PStr "zz999"]))))
        (store (inr {| rs_description := Some products_columns; rs_fetchall := inr [] |})).

(** The result set names two of its three columns [id]. *)
Definition world_two_ids : World :=
  world (inr (response 200 "OK" (inr (predicate "price < %s" [PInt 150]))))
        (store (inr {| rs_description :=
                         Some [mkColumn "id" 23; mkColumn "name" 1043; mkColumn "id" 23];
                       rs_fetchall := inr [[PInt 1; PStr "Widget"; PInt 40]] |})).


(** A 200 answer whose body is a JSON array. *)
Definition world_array_body : World :=
  world (inr (response 200 "OK" (inr (PList [PStr "price >= %s"; PInt 100]))))
        (store (inr products_result)).

(** The statement ran but left no result set behind. *)
Definition world_no_description : World :=
  world (inr (response 200 "OK" (inr (predicate "product_code = %s" [PStr "13w42"]))))
        (store (inr {| rs_description := None; rs_fetchall := inr [] |})).

(** The queries of the runs. *)
Definition q_product_code : string := "productCode:13w42".
Definition q_price : string := "price:>=100".
Definition q_colour : string := "colour:red".

(** ** What a trace shows *)

Definition calls (t : list event) : list (call * bool) :=
  omap (λ ev, match ev with EvCall c ok => Some (c, ok) | _ => None end) t.

(** The requests sent over the network. *)
Definition network_calls (t : list event) : list (string * pyval) :=
  omap (λ c, match c with (Post url body, _) => Some (url, body) | _ => None end) (calls t).

(** The calls made to the store driver, with their success. *)
Definition is_store_call (c : call) : bool :=
  match c with
  | Connect _ | MkCursor | Execute _ _ | Fetchall | CursorClose | ConnClose => true
  | Post _ _ | RaiseForStatus | Json => false
  end.

Definition store_calls (t : list event) : list (call * bool) :=
  List.filter (λ c, is_store_call c.1) (calls t).

(** The statements handed to [cur.execute], text and bind argument. *)
Definition executed (t : list event) : list (string * pyval) :=
  omap (λ c, match c with (Execute sql ps, _) => Some (sql, ps) | _ => None end) (calls t).

(** The configurations [psycopg2.connect] was called with. *)
Definition connects (t : list event) : list DbConfig :=
  omap (λ c, match c with (Connect cfg, _) => Some cfg | _ => None end) (calls t).

(** The first of the three columns [main] shows that a record lacks. *)
Definition missing_column (product : gmap string pyval) : option string :=
  find (λ key, bool_decide (product !! key = None)) ["name"; "product_code"; "price"].

(** The lines written by [print]. *)
Definition prints (t : list event) : list string :=
  omap (λ ev, match ev with EvPrint line => Some line | _ => None end) t.

Definition description_reads (t : list event) : nat :=
  length (List.filter (λ ev, match ev with EvReadDescription => true | _ => false end) t).

Definition connection_opened (t : list event) : bool :=
  existsb (λ c, match c with (Connect _, true) => true | _ => false end) (calls t).

Definition close_attempted (t : list event) : bool :=
  existsb (λ c, match c with (ConnClose, _) => true | _ => false end) (calls t).

(** The two error domains, as the [except] clauses tell them apart. *)
Definition translation_failure {A} (o : outcome A) : Prop :=
  ∃ e, o = Raise e ∧ isinstance_RequestException e = true.

Definition execution_failure {A} (o : outcome A) : Prop :=
  ∃ e, o = Raise e ∧ isinstance_psycopg2_Error e = true.

(** ** A run in which every step succeeds *)

(** [completed py_str w q columns rows]: the translation answers with a
    usable predicate and the store runs the statement, giving a result
    set with these column names and these rows, and closes cleanly. *)
Inductive completed (py_str : pyval → string) (w : World) (q : string)
  : list string → list (list pyval) → Prop :=
  | Completed resp translation wc ps conn cur rset ds rows :
      requests_post w (translate_url w) (request_body q) = inr resp →
      raise_for_status resp = inr tt →
      resp_json resp = inr translation →
      getitem translation "whereClause" = inr wc →
      getitem translation "parameters" = inr ps →
      psycopg2_connect w DB_CONFIG = inr conn →
      conn_cursor conn = inr cur →
      cur_execute cur (sql_template +:+ format py_str wc) ps = inr rset →
      rs_description rset = Some ds →
      rs_fetchall rset = inr rows →
      cur_close cur = inr tt →
      conn_close conn = inr tt →
      completed py_str w q (col_name <$> ds) rows.

(** The predicate the translation service hands over, when the call,
    the status check, the decoding and both field lookups succeed. *)
Definition service_predicate (w : World) (q : string) : option (pyval * pyval) :=
  match requests_post w (translate_url w) (request_body q) with
  | inl _ => None
  | inr resp =>
      match raise_for_status resp, resp_json resp with
      | inr _, inr translation =>
          match getitem translation "whereClause", getitem translation "parameters" with
          | inr wc, inr ps => Some (wc, ps)
          | _, _ => None
          end
      | _, _ => None
      end
  end.

(** What the clause that catches the exception prints. *)
Definition except_output {A} (o : outcome A) : list event :=
  match o with
  | Return _ => []
  | Raise e =>
      if isinstance_RequestException e then [EvPrint ("rsearch error: " +:+ exn_str e)]
      else if isinstance_psycopg2_Error e then [EvPrint ("Database error: " +:+ exn_str e)]
      else []
  end.

(** ** Three sentences of the specification, as they are worded *)

(** A body that does not decode, or decodes to something without both
    fields. *)
Definition malformed (resp : Response) : Prop :=
  ∀ translation, resp_json resp = inr translation →
    ¬ ∃ wc ps, getitem translation "whereClause" = inr wc
               ∧ getitem translation "parameters" = inr ps.

(** "A success status with a malformed body is a TranslationFailure." *)
Definition malformed_body_is_translation_failure
    (py_str : pyval → string) (w : World) (q : string) : Prop :=
  ∀ resp,
    requests_post w (translate_url w) (request_body q) = inr resp →
    (200 ≤ status_code resp < 300)%Z →
    malformed resp →
    translation_failure (result (search_products py_str w q)).

(** "A non-2xx status or an unreachable endpoint is a
    TranslationFailure and the store is never called." *)
Definition non_2xx_never_reaches_store
    (py_str : pyval → string) (w : World) (q : string) : Prop :=
  (∃ e, requests_post w (translate_url w) (request_body q) = inl e
        ∧ isinstance_RequestException e = true)
  ∨ (∃ resp, requests_post w (translate_url w) (request_body q) = inr resp
             ∧ ¬ (200 ≤ status_code resp < 300)%Z) →
  translation_failure (result (search_products py_str w q))
  ∧ store_calls (trace (search_products py_str w q)) = [].


(** ** Proof steps *)

(** Splits a goal about [search_body] along the steps of the block:
    one case per step that can raise, and the case where none does. *)
Ltac step :=
  match goal with
  | |- context [lib _ ?r] =>
      let H := fresh "Hcall" in destruct r as [?e|?a] eqn:H; cbn
  | |- context [py ?r] =>
      let H := fresh "Hpy" in destruct r as [?e|?a] eqn:H; cbn
  end.

Ltac run_cases := unfold search_body; cbn; repeat step.

Ltac units := repeat match goal with u : () |- _ => destruct u end.

Ltac in_list :=
  repeat match goal with
    | H : _ ∈ [] |- _ => by apply elem_of_nil in H
    | H : _ ∈ _ :: _ |- _ => apply elem_of_cons in H as [H|H]; [try discriminate H|]
    end.

(** Membership in a list that is written out. *)
Ltac found := solve [repeat first [apply list_elem_of_here | apply list_elem_of_further]].

(** Two answers recorded for the same call are the same answer. *)
Ltac same_call :=
  repeat match goal with
    | H1 : ?r = inl _, H2 : ?r = inr _ |- _ => rewrite H1 in H2; discriminate H2
    | H1 : ?r = inr ?x, H2 : ?r = inr ?y |- _ =>
        rewrite H1 in H2; injection H2 as ?; subst
    | H1 : ?r = Some ?x, H2 : ?r = None |- _ => rewrite H1 in H2; discriminate H2
    end.

(** * Properties *)

Section Properties.

Variable py_str : pyval → string.

#[local] Arguments getitem : simpl never.
#[local] Arguments raise_for_status : simpl never.
#[local] Arguments format : simpl never.
#[local] Arguments dict_zip : simpl never.
#[local] Arguments request_body : simpl never.
#[local] Arguments translate_url : simpl never.
#[local] Arguments append : simpl never.

(** ** Records built by [dict(zip(columns, row))] *)

Lemma foldl_put_absent (ps : list (string * pyval)) (m : gmap string pyval) k :
  k ∉ ps.*1 → foldl dict_set m ps !! k = m !! k.
Proof.
  revert m. induction ps as [|[k' v'] ps IH]; intros m Hk; [done|].
  cbn in *. apply not_elem_of_cons in Hk as [Hne Hk].
  rewrite IH by done. unfold dict_set. cbn. by rewrite lookup_insert_ne.
Qed.

Lemma foldl_put_last (ps : list (string * pyval)) (m : gmap string pyval) i k v :
  ps !! i = Some (k, v) →
  (∀ j kv, i < j → ps !! j = Some kv → kv.1 ≠ k) →
  foldl dict_set m ps !! k = Some v.
Proof.
  revert m i. induction ps as [|[k' v'] ps IH]; intros m i Hi Hlater; [done|].
  destruct i as [|i]; cbn in *.
  - injection Hi as -> ->. rewrite foldl_put_absent.
    + unfold dict_set. cbn. by rewrite lookup_insert_eq.
    + intros Hin. apply list_elem_of_fmap in Hin as ([k1 v1] & -> & Hin).
      apply list_elem_of_lookup in Hin as [j Hj].
      apply (Hlater (S j) (k1, v1)); [lia|done|done].
  - apply (IH _ i); [done|]. intros j kv Hlt Hj.
    apply (Hlater (S j) kv); [lia|done].
Qed.

Lemma foldl_put_dom (ps : list (string * pyval)) (m : gmap string pyval) :
  dom (foldl dict_set m ps) = dom m ∪ list_to_set ps.*1.
Proof.
  clear py_str. revert m. induction ps as [|[k v] ps IH]; intros m; cbn.
  - set_solver.
  - rewrite IH. unfold dict_set. cbn. rewrite dom_insert_L. set_solver.
Qed.

Lemma size_list_to_set_le (l : list string) :
  (size (list_to_set l : gset string) ≤ length l)%nat.
Proof.
  induction l as [|x l IH]; cbn; [by rewrite size_empty|].
  rewrite size_union_alt, size_singleton.
  pose proof (subseteq_size (list_to_set l ∖ {[x]}) (list_to_set l : gset string)
                ltac:(set_solver)). lia.
Qed.

Lemma size_list_to_set_dup (l : list string) :
  ¬ NoDup l → (size (list_to_set l : gset string) < length l)%nat.
Proof.
  induction l as [|x l IH]; intros Hdup; [by destruct Hdup; constructor|].
  destruct (decide (x ∈ l)) as [Hin|Hout]; cbn.
  - replace ({[x]} ∪ list_to_set l : gset string) with (list_to_set l : gset string)
      by set_solver.
    pose proof (size_list_to_set_le l). lia.
  - assert (¬ NoDup l) as Hl by (intros Hl; apply Hdup; by constructor).
    specialize (IH Hl). rewrite size_union_alt, size_singleton.
    pose proof (subseteq_size (list_to_set l ∖ {[x]}) (list_to_set l : gset string)
                  ltac:(set_solver)). lia.
Qed.

Lemma dict_zip_last columns row k name v :
  columns !! k = Some name →
  row !! k = Some v →
  (∀ j, k < j → columns !! j ≠ Some name) →
  dict_zip columns row !! name = Some v.
Proof.
  intros Hc Hr Hlast. unfold dict_zip, dict_of_pairs.
  apply (foldl_put_last _ _ k).
  - by apply lookup_zip_Some.
  - intros j [k' v'] Hlt Hj Heq. cbn in Heq. subst k'.
    apply lookup_zip_Some in Hj as [Hj _].
    by apply (Hlast j).
Qed.

Lemma dict_zip_size columns row :
  length row = length columns →
  size (dict_zip columns row) = size (list_to_set columns : gset string).
Proof.
  clear py_str. intros Hlen. unfold dict_zip, dict_of_pairs.
  rewrite <-size_dom, (foldl_put_dom _ ∅), dom_empty_L, fst_zip by lia.
  f_equal. set_solver.
Qed.


Lemma zip_fst_take (columns : list string) (row : list pyval) :
  (zip columns row).*1 = take (length row) columns.
Proof.
  revert row. induction columns as [|c columns IH]; intros [|v row]; cbn; try done.
  by rewrite IH.
Qed.

Lemma dict_zip_dom columns row :
  dom (dict_zip columns row) = list_to_set (take (length row) columns).
Proof.
  clear py_str. unfold dict_zip, dict_of_pairs.
  rewrite foldl_put_dom, dom_empty_L, zip_fst_take. set_solver.
Qed.

Lemma dict_zip_last_in_row columns row k name v :
  columns !! k = Some name →
  row !! k = Some v →
  (∀ j, (k < j)%nat → (j < length row)%nat → columns !! j ≠ Some name) →
  dict_zip columns row !! name = Some v.
Proof.
  intros Hc Hr Hlast. unfold dict_zip, dict_of_pairs.
  apply (foldl_put_last _ _ k).
  - by apply lookup_zip_Some.
  - intros j [k' v'] Hlt Hj Heq. cbn in Heq. subst k'.
    apply lookup_zip_Some in Hj as [Hj Hv].
    apply (Hlast j); [done| |done]. by eapply lookup_lt_Some.
Qed.

(** ** The [except] clauses *)

Lemma search_products_result w q :
  result (search_products py_str w q) = result (search_body py_str w q).
Proof.
  unfold search_products, try_except.
  destruct (search_body py_str w q) as [[rs|e] t]; [done|].
  cbn. destruct (isinstance_RequestException e); [done|].
  destruct (isinstance_psycopg2_Error e); done.
Qed.

Lemma search_products_trace w q :
  trace (search_products py_str w q)
  = trace (search_body py_str w q) ++ except_output (result (search_body py_str w q)).
Proof.
  unfold search_products, try_except.
  destruct (search_body py_str w q) as [[rs|e] t]; cbn.
  - by rewrite app_nil_r.
  - destruct (isinstance_RequestException e); [done|].
    destruct (isinstance_psycopg2_Error e); cbn; [done|by rewrite app_nil_r].
Qed.

(** ** Case analysis of the [try] block *)

Lemma column_names_inr d columns :
  column_names d = inr columns ↔ ∃ ds, d = Some ds ∧ columns = col_name <$> ds.
Proof.
  destruct d as [ds|]; cbn; split.
  - intros [= <-]. eauto.
  - by intros (? & [= <-] & ->).
  - done.
  - by intros (? & ? & _).
Qed.

Lemma search_body_completed w q columns rows :
  completed py_str w q columns rows →
  result (search_body py_str w q) = Return (dict_zip columns <$> rows).
Proof.
  intros [resp tr wc ps conn cur rset ds rows' H1 H2 H3 H4 H5 H6 H7 H8 H9 H10 H11 H12].
  unfold search_body. rewrite H1. cbn. rewrite H2. cbn. rewrite H3. cbn.
  rewrite H4, H5. cbn. rewrite H6. cbn. rewrite H7. cbn. rewrite H8. cbn.
  rewrite H9. cbn. rewrite H10. cbn. by rewrite H11, H12.
Qed.

Lemma search_body_Return w q rs :
  result (search_body py_str w q) = Return rs →
  ∃ columns rows, completed py_str w q columns rows ∧ rs = dict_zip columns <$> rows.
Proof.
  run_cases; intros Hr; try discriminate Hr. units.
  match goal with H : column_names _ = _ |- _ =>
    apply column_names_inr in H as (ds & Hd & ->) end.
  injection Hr as <-. eauto 20 using Completed.
Qed.

(** ** What the [except] clauses leave untouched *)

Lemma calls_except_output {A} (o : outcome A) : calls (except_output o) = [].
Proof.
  destruct o as [a|e]; cbn; [done|].
  destruct (isinstance_RequestException e); [done|].
  by destruct (isinstance_psycopg2_Error e).
Qed.

Lemma search_products_calls w q :
  calls (trace (search_products py_str w q)) = calls (trace (search_body py_str w q)).
Proof.
  rewrite search_products_trace. unfold calls at 1.
  rewrite omap_app. fold (calls (trace (search_body py_str w q))).
  fold (calls (except_output (result (search_body py_str w q)))).
  by rewrite calls_except_output, app_nil_r.
Qed.

Lemma search_products_description_reads w q :
  description_reads (trace (search_products py_str w q))
  = description_reads (trace (search_body py_str w q)).
Proof.
  rewrite search_products_trace. unfold description_reads.
  rewrite List.filter_app, length_app.
  destruct (result (search_body py_str w q)) as [a|e]; cbn; [lia|].
  destruct (isinstance_RequestException e); cbn; [lia|].
  destruct (isinstance_psycopg2_Error e); cbn; lia.
Qed.

(** ** The single [execute] call *)

Lemma execute_call w q sql ps ok :
  (Execute sql ps, ok) ∈ calls (trace (search_body py_str w q)) →
  ∃ wc conn cur,
    service_predicate w q = Some (wc, ps)
    ∧ sql = sql_template +:+ format py_str wc
    ∧ executed (trace (search_body py_str w q)) = [(sql, ps)]
    ∧ psycopg2_connect w DB_CONFIG = inr conn
    ∧ conn_cursor conn = inr cur
    ∧ match cur_execute cur sql ps with
      | inl e => ok = false ∧ result (search_body py_str w q) = Raise e
      | inr _ => ok = true
      end.
Proof.
  unfold service_predicate. run_cases; intros Hin; in_list.
  all: injection Hin as -> -> ->.
  all: eexists _, _, _; repeat split; try eassumption; try reflexivity.
  all: match goal with H : cur_execute _ _ _ = _ |- _ => by rewrite H end.
Qed.

Lemma executed_call t sql ps :
  (sql, ps) ∈ executed t → ∃ ok, (Execute sql ps, ok) ∈ calls t.
Proof.
  unfold executed. intros Hin.
  apply list_elem_of_omap in Hin as ([c ok] & Hin & Hc).
  destruct c; try discriminate Hc. injection Hc as -> ->. eauto.
Qed.

Lemma search_body_Return_calls w q rs :
  result (search_body py_str w q) = Return rs →
  Forall (λ c, c.2 = true) (calls (trace (search_body py_str w q))).
Proof. run_cases; intros Hr; try discriminate Hr. by repeat constructor. Qed.

Lemma search_body_Return_description_reads w q rs :
  result (search_body py_str w q) = Return rs →
  description_reads (trace (search_body py_str w q)) = 1.
Proof. by run_cases; intros Hr; try discriminate Hr. Qed.

(** ** The statement and its bind argument *)

(** C1. Whatever statement the function executes, its text is the
    fixed template followed by the whereClause of the translation
    response, and the bind argument is the response's parameters.
    The text is therefore a function of the whereClause alone: two
    runs, with any queries and any parameters, whose responses carry
    the same whereClause execute the same text. *)
Theorem statement_text_is_template_and_whereClause w q sql params :
  (sql, params) ∈ executed (trace (search_products py_str w q)) →
  (∃ wc, service_predicate w q = Some (wc, params)
         ∧ sql = "SELECT * FROM products WHERE " +:+ format py_str wc)
  ∧ (∀ w' q' sql' params',
       (sql', params') ∈ executed (trace (search_products py_str w' q')) →
       fst <$> service_predicate w' q' = fst <$> service_predicate w q →
       sql' = sql).
Proof.
  assert (∀ w q sql params,
    (sql, params) ∈ executed (trace (search_products py_str w q)) →
    ∃ wc, service_predicate w q = Some (wc, params)
          ∧ sql = sql_template +:+ format py_str wc) as Hone.
  { clear. intros w q sql params Hin.
    apply executed_call in Hin as [ok Hin]. rewrite search_products_calls in Hin.
    apply execute_call in Hin as (wc & _ & _ & Hp & Hsql & _). eauto. }
  intros Hin. split; [by apply Hone|].
  intros w' q' sql' params' Hin' Hsame.
  apply Hone in Hin as (wc & Hp & ->). apply Hone in Hin' as (wc' & Hp' & ->).
  rewrite Hp, Hp' in Hsame. by injection Hsame as ->.
Qed.


(** ** Outcomes *)

(** C6. The [except] clauses hand on exactly the outcome of the
    [try] block, so nothing caught is swallowed; and a run either
    went through every step and returns one record per fetched row,
    or raises. *)
Theorem full_result_set_or_error w q :
  result (search_products py_str w q) = result (search_body py_str w q)
  ∧ ((∃ columns rows,
        completed py_str w q columns rows
        ∧ result (search_products py_str w q) = Return (dict_zip columns <$> rows)
        ∧ Forall (λ c, c.2 = true) (calls (trace (search_products py_str w q))))
     ∨ (∃ e, result (search_products py_str w q) = Raise e)).
Proof.
  split; [apply search_products_result|].
  rewrite search_products_calls, search_products_result.
  destruct (result (search_body py_str w q)) as [rs|e] eqn:Hr; [left|right; eauto].
  pose proof (search_body_Return_calls _ _ _ Hr) as Hok.
  apply search_body_Return in Hr as (columns & rows & Hdone & ->). eauto.
Qed.

(** C9. Every run sends exactly one request, to the translate
    endpoint, and its body holds the schema, the dialect and the
    caller's query string as given. *)
Theorem one_network_call_with_verbatim_query w q :
  network_calls (trace (search_products py_str w q))
  = [ (RSEARCH_URL w +:+ "/api/v1/translate",
       PDict [("schema", PStr "products");
              ("database", PStr "postgres");
              ("query", PStr q)]) ].
Proof.
  unfold network_calls. rewrite search_products_calls.
  run_cases; reflexivity.
Qed.

(** C7. When the translation succeeds and the store answers the
    statement with no rows, the function returns the empty list. *)
Theorem no_matching_rows_returns_empty w q columns :
  completed py_str w q columns [] →
  result (search_products py_str w q) = Return [].
Proof.
  intros Hdone. rewrite search_products_result.
  by rewrite (search_body_completed _ _ _ _ Hdone).
Qed.

(** C8. A run that returns has read [cur.description] once.  It
    returns one record per fetched row, in the order in which
    [fetchall] gave the rows: the record at an index comes from the
    row at that index.  That record is the zip of the column names of
    the description with the row: its keys are the names that have a
    value in the row, and under a name it holds the row's value at the
    position of that name (of the last such position, when the name
    occurs more than once). *)
Theorem records_zip_columns_in_store_order w q rs :
  result (search_products py_str w q) = Return rs →
  description_reads (trace (search_products py_str w q)) = 1
  ∧ ∃ columns rows,
      completed py_str w q columns rows
      ∧ rs = dict_zip columns <$> rows
      ∧ length rs = length rows
      ∧ ∀ i row,
          rows !! i = Some row →
          ∃ record,
            rs !! i = Some record
            ∧ dom record = list_to_set (take (length row) columns)
            ∧ ∀ k name v,
                columns !! k = Some name →
                row !! k = Some v →
                (∀ j, (k < j)%nat → (j < length row)%nat → columns !! j ≠ Some name) →
                record !! name = Some v.
Proof.
  rewrite search_products_result, search_products_description_reads.
  intros Hr. split; [by eapply search_body_Return_description_reads|].
  apply search_body_Return in Hr as (columns & rows & Hdone & ->).
  exists columns, rows. split_and!; [done..|by rewrite length_fmap|].
  intros i row Hrow. exists (dict_zip columns row). split_and!.
  - by rewrite list_lookup_fmap, Hrow.
  - apply dict_zip_dom.
  - intros k name v. apply dict_zip_last_in_row.
Qed.

(** C10. When the description names a column twice, the run still
    returns; every record built from a row as long as the
    description has fewer entries than the row has values, and under
    a name it holds the value of the last column so named. *)
Theorem duplicate_column_keeps_last_value w q columns rows :
  completed py_str w q columns rows →
  ¬ NoDup columns →
  ∃ rs,
    result (search_products py_str w q) = Return rs
    ∧ ∀ i row,
        rows !! i = Some row →
        length row = length columns →
        ∃ record,
          rs !! i = Some record
          ∧ (size record < length row)%nat
          ∧ ∀ k name v,
              columns !! k = Some name →
              row !! k = Some v →
              (∀ j, (k < j)%nat → columns !! j ≠ Some name) →
              record !! name = Some v.
Proof.
  intros Hdone Hdup. exists (dict_zip columns <$> rows). split.
  { rewrite search_products_result. by apply search_body_completed. }
  intros i row Hrow Hlen. exists (dict_zip columns row). split_and!.
  - by rewrite list_lookup_fmap, Hrow.
  - rewrite dict_zip_size, Hlen by done. by apply size_list_to_set_dup.
  - intros k name v. apply dict_zip_last.
Qed.

(** ** Failures of the translation step *)

Lemma raise_for_status_4xx_5xx resp :
  (400 ≤ status_code resp < 600)%Z →
  ∃ e, raise_for_status resp = inl e ∧ isinstance_RequestException e = true.
Proof.
  intros Hs. unfold raise_for_status. repeat case_bool_decide; eauto; lia.
Qed.

Lemma raise_for_status_2xx resp :
  (200 ≤ status_code resp < 300)%Z → raise_for_status resp = inr ().
Proof.
  intros Hs. unfold raise_for_status. repeat case_bool_decide; done || lia.
Qed.

Lemma raise_for_status_other resp :
  ¬ (400 ≤ status_code resp < 600)%Z → raise_for_status resp = inr ().
Proof.
  intros Hs. unfold raise_for_status. repeat case_bool_decide; done || lia.
Qed.

(** C4, as the function has it.  When [requests.post] raises a
    [RequestException], or the response has a 4xx or 5xx status,
    the caller gets a [RequestException] and the driver is not
    called at all: no connection, no statement.  A response with any
    other status passes the status check: its body is decoded, and
    when it decodes to an object with both fields the driver is asked
    for a connection. *)
Theorem http_error_never_reaches_store w q :
  ((∃ e, requests_post w (translate_url w) (request_body q) = inl e
         ∧ isinstance_RequestException e = true)
   ∨ (∃ resp, requests_post w (translate_url w) (request_body q) = inr resp
              ∧ (400 ≤ status_code resp < 600)%Z) →
   translation_failure (result (search_products py_str w q))
   ∧ store_calls (trace (search_products py_str w q)) = [])
  ∧ (∀ resp,
       requests_post w (translate_url w) (request_body q) = inr resp →
       ¬ (400 ≤ status_code resp < 600)%Z →
       (RaiseForStatus, true) ∈ calls (trace (search_products py_str w q))
       ∧ (∃ ok, (Json, ok) ∈ calls (trace (search_products py_str w q)))
       ∧ ∀ translation wc ps,
           resp_json resp = inr translation →
           getitem translation "whereClause" = inr wc →
           getitem translation "parameters" = inr ps →
           connects (trace (search_products py_str w q)) = [DB_CONFIG]).
Proof.
  unfold store_calls, translation_failure, connects.
  rewrite search_products_calls, search_products_result. split.
  - intros [(e & Hpost & He)|(resp & Hpost & Hs)].
    + unfold search_body. rewrite Hpost. cbn. eauto.
    + apply raise_for_status_4xx_5xx in Hs as (e & Hs & He).
      unfold search_body. rewrite Hpost. cbn. rewrite Hs. cbn. eauto.
  - intros resp Hpost Hs. apply raise_for_status_other in Hs.
    unfold search_body. rewrite Hpost. cbn. rewrite Hs. cbn. split_and!.
    + destruct (resp_json resp); cbn; repeat step; found.
    + destruct (resp_json resp); cbn; repeat step; eexists; found.
    + intros translation wc ps -> Hwc Hps. cbn. rewrite Hwc, Hps. cbn.
      repeat step; reflexivity.
Qed.

Lemma getitem_missing d key :
  (list_to_map d : gmap string pyval) !! key = None →
  ∃ e, getitem (PDict d) key = inl e ∧ exn_class_of e = KeyError.
Proof. intros Hk. unfold getitem. rewrite Hk. eauto. Qed.

(** C3, as the function has it.  With a success status: when the
    body does not decode, the exception of [response.json()] is what
    the caller gets; when it decodes to an object without
    [whereClause] or without [parameters], the caller gets a
    [KeyError], which neither [except] clause takes for a translation
    or a store error.  In both cases the driver is not called. *)
Theorem malformed_body_outcome w q resp :
  requests_post w (translate_url w) (request_body q) = inr resp →
  (200 ≤ status_code resp < 300)%Z →
  (∀ e, resp_json resp = inl e →
        result (search_products py_str w q) = Raise e
        ∧ store_calls (trace (search_products py_str w q)) = [])
  ∧ (∀ d, resp_json resp = inr (PDict d) →
          (list_to_map d : gmap string pyval) !! "whereClause" = None
          ∨ (list_to_map d : gmap string pyval) !! "parameters" = None →
          (∃ e, result (search_products py_str w q) = Raise e
                ∧ exn_class_of e = KeyError)
          ∧ ¬ translation_failure (result (search_products py_str w q))
          ∧ ¬ execution_failure (result (search_products py_str w q))
          ∧ store_calls (trace (search_products py_str w q)) = []).
Proof.
  intros Hpost Hs. apply raise_for_status_2xx in Hs.
  unfold store_calls, translation_failure, execution_failure.
  rewrite search_products_calls, search_products_result.
  unfold search_body. rewrite Hpost. cbn. rewrite Hs. cbn. split.
  - intros e ->. by cbn.
  - intros d -> Hmiss. cbn.
    assert (∃ e, exn_class_of e = KeyError
              ∧ (getitem (PDict d) "whereClause" = inl e
                 ∨ ∃ wc, getitem (PDict d) "whereClause" = inr wc
                         ∧ getitem (PDict d) "parameters" = inl e))
      as (e & Hcls & Hget).
    { destruct Hmiss as [Hm|Hm]; apply getitem_missing in Hm as (e & Hm & Hcls).
      - eauto.
      - destruct (getitem (PDict d) "whereClause") as [e'|wc] eqn:Hwc; [|by eauto 6].
        exists e'. split; [|by left].
        unfold getitem in Hwc. by destruct (_ !! _); simplify_eq. }
    assert (∀ e', Raise (A:=list (gmap string pyval)) e = Raise e' →
                  isinstance_RequestException e' = false
                  ∧ isinstance_psycopg2_Error e' = false) as Hdom.
    { intros e' [= <-]. unfold isinstance_RequestException, isinstance_psycopg2_Error.
      by rewrite Hcls. }
    destruct Hget as [Hget|(wc & Hwc & Hget)].
    + rewrite Hget. cbn. split_and!; [eauto|..|done].
      * intros (e' & Heq & Hre). apply Hdom in Heq as [? ?]. congruence.
      * intros (e' & Heq & Hre). apply Hdom in Heq as [? ?]. congruence.
    + rewrite Hwc, Hget. cbn. split_and!; [eauto|..|done].
      * intros (e' & Heq & Hre). apply Hdom in Heq as [? ?]. congruence.
      * intros (e' & Heq & Hre). apply Hdom in Heq as [? ?]. congruence.
Qed.

(** ** Release of the connection *)

(** [conn.close()] is reached only on the path where [fetchall] and
    [cur.close()] have returned. *)
Lemma close_only_after_fetchall w q :
  close_attempted (trace (search_products py_str w q)) = true →
  (Fetchall, true) ∈ calls (trace (search_products py_str w q))
  ∧ (CursorClose, true) ∈ calls (trace (search_products py_str w q)).
Proof.
  unfold close_attempted. rewrite search_products_calls.
  run_cases; intros Hc; try discriminate Hc; split; set_solver.
Qed.

(** ** Further behaviour of [search_products] *)

(** The keys of a record are the column names that have a value in
    the row: names past the end of the row are left out, values past
    the end of the names are dropped. *)
Theorem dict_zip_keys columns row :
  dom (dict_zip columns row) = list_to_set (take (length row) columns).
Proof.
  clear py_str. unfold dict_zip, dict_of_pairs.
  rewrite foldl_put_dom, dom_empty_L, zip_fst_take. set_solver.
Qed.

(** With distinct column names and a row of the same length, the
    record has one entry per column and gives back under each name the
    value at that column's position. *)
Theorem dict_zip_distinct_columns columns row :
  NoDup columns →
  length row = length columns →
  size (dict_zip columns row) = length row
  ∧ ∀ i name, columns !! i = Some name → dict_zip columns row !! name = row !! i.
Proof.
  intros Hnd Hlen. split.
  - rewrite dict_zip_size, Hlen by done. by apply size_list_to_set.
  - intros i name Hi.
    destruct (lookup_lt_is_Some_2 row i) as [v Hv].
    { rewrite Hlen. by eapply lookup_lt_Some. }
    rewrite Hv. apply (dict_zip_last _ _ i); [done..|].
    intros j Hlt Hj. pose proof (NoDup_lookup _ _ _ _ Hnd Hi Hj). lia.
Qed.

(** The driver is asked for a connection exactly when the translation
    step delivered both fields, then once, and with [DB_CONFIG]. *)
Theorem connect_once_after_translation w q :
  connects (trace (search_products py_str w q))
  = match service_predicate w q with
    | Some _ => [DB_CONFIG]
    | None => []
    end.
Proof.
  unfold connects. rewrite search_products_calls. unfold service_predicate.
  run_cases; reflexivity.
Qed.

(** Once the translation step has delivered both fields, the function
    has printed the query, the whereClause, the parameters and a rule;
    the only line that can follow is the one of the [except] clause
    that catches the failure of a later step. *)
Theorem translated_run_prints w q wc ps :
  service_predicate w q = Some (wc, ps) →
  prints (trace (search_products py_str w q))
  = [ "Query: " +:+ q; "SQL: " +:+ format py_str wc;
      "Params: " +:+ format py_str ps; "---" ]
    ++ prints (except_output (result (search_products py_str w q))).
Proof.
  rewrite search_products_trace, search_products_result.
  unfold prints. rewrite omap_app. unfold service_predicate.
  run_cases; intros Hp; try discriminate Hp; injection Hp as <- <-; reflexivity.
Qed.

(** When [requests.post] itself raises, the caller gets that
    exception, no other call is made, and the one line printed, if
    any, is the one of the clause that catches it. *)
Theorem post_failure_outcome w q e :
  requests_post w (translate_url w) (request_body q) = inl e →
  result (search_products py_str w q) = Raise e
  ∧ calls (trace (search_products py_str w q))
    = [(Post (translate_url w) (request_body q), false)]
  ∧ prints (trace (search_products py_str w q))
    = if isinstance_RequestException e then ["rsearch error: " +:+ exn_str e]
      else if isinstance_psycopg2_Error e then ["Database error: " +:+ exn_str e]
      else [].
Proof.
  intros Hpost.
  rewrite search_products_calls, search_products_trace, search_products_result.
  unfold search_body. rewrite Hpost. cbn. split_and!; [done..|].
  destruct (isinstance_RequestException e); [done|].
  by destruct (isinstance_psycopg2_Error e).
Qed.

(** A body that decodes to something other than an object makes the
    first field lookup raise [TypeError]: only the query line has been
    printed, neither [except] clause catches it, and the driver is not
    called. *)
Theorem non_object_body_raises_TypeError w q resp translation :
  requests_post w (translate_url w) (request_body q) = inr resp →
  raise_for_status resp = inr () →
  resp_json resp = inr translation →
  (∀ d, translation ≠ PDict d) →
  (∃ e, result (search_products py_str w q) = Raise e ∧ exn_class_of e = TypeError)
  ∧ prints (trace (search_products py_str w q)) = ["Query: " +:+ q]
  ∧ store_calls (trace (search_products py_str w q)) = [].
Proof.
  intros Hpost Hs Hj Hnd. unfold store_calls.
  rewrite search_products_calls, search_products_trace, search_products_result.
  unfold search_body. rewrite Hpost. cbn. rewrite Hs. cbn. rewrite Hj. cbn.
  destruct translation; try (by split_and!; [eexists; split|..]).
  by destruct (Hnd d).
Qed.

(** [conn.close()] returns on exactly the runs that return: a run
    that raises after the connection was opened leaves it open. *)
Theorem connection_closed_iff_returned w q :
  (ConnClose, true) ∈ calls (trace (search_products py_str w q))
  ↔ ∃ rs, result (search_products py_str w q) = Return rs.
Proof.
  rewrite search_products_calls, search_products_result.
  run_cases; split; try (intros Hin; by in_list); try (by intros [rs [=]]).
  - eauto.
  - intros _. set_solver.
Qed.

(** A statement that leaves no result set makes the read of the
    column names raise [TypeError]: [fetchall] is not called and the
    connection is not closed. *)
Theorem missing_description_raises_TypeError w q wc ps conn cur rset :
  service_predicate w q = Some (wc, ps) →
  psycopg2_connect w DB_CONFIG = inr conn →
  conn_cursor conn = inr cur →
  cur_execute cur (sql_template +:+ format py_str wc) ps = inr rset →
  rs_description rset = None →
  (∃ e, result (search_products py_str w q) = Raise e ∧ exn_class_of e = TypeError)
  ∧ description_reads (trace (search_products py_str w q)) = 1
  ∧ (∀ ok, (Fetchall, ok) ∉ calls (trace (search_products py_str w q)))
  ∧ close_attempted (trace (search_products py_str w q)) = false.
Proof.
  unfold close_attempted.
  rewrite search_products_calls, search_products_description_reads,
    search_products_result.
  unfold service_predicate.
  run_cases; intros Hp Hconn Hcur Hex Hd; simplify_eq; same_call.
  all: match goal with H : column_names _ = _ |- _ => rewrite Hd in H; cbn in H end.
  all: simplify_eq.
  all: split_and!; [by eexists; split|done| |done].
  all: intros ok Hin; by in_list.
Qed.

(** ** The driver *)

#[local] Arguments search_products : simpl never.
#[local] Arguments pretty : simpl never.
#[local] Arguments network_calls : simpl never.

Lemma calls_app t1 t2 : calls (t1 ++ t2) = calls t1 ++ calls t2.
Proof. apply omap_app. Qed.

Lemma network_calls_app t1 t2 :
  network_calls (t1 ++ t2) = network_calls t1 ++ network_calls t2.
Proof. unfold network_calls. by rewrite calls_app, omap_app. Qed.

Lemma search_products_posts w q :
  network_calls (trace (search_products py_str w q))
  = [(translate_url w, request_body q)].
Proof.
  unfold network_calls. rewrite search_products_calls.
  run_cases; reflexivity.
Qed.

Lemma run_example_result w ex : result (run_example py_str w ex) = Return ().
Proof.
  unfold run_example, show_results.
  destruct (search_products py_str w ex.2) as [[[|product rest]|e] t]; cbn; try done.
  repeat step; done.
Qed.

Lemma run_example_calls w ex :
  calls (trace (run_example py_str w ex)) = calls (trace (search_products py_str w ex.2)).
Proof.
  unfold run_example, show_results.
  destruct (search_products py_str w ex.2) as [[[|product rest]|e] t]; cbn;
    repeat step; rewrite ?calls_app; cbn; by rewrite ?app_nil_r.
Qed.

Lemma for_each_result {A} (l : list A) (body : A → M ()) :
  (∀ x, result (body x) = Return ()) → result (for_each l body) = Return ().
Proof.
  intros Hbody. induction l as [|x l IH]; [done|]. cbn.
  specialize (Hbody x). destruct (body x) as [[[]|e] t]; [|done].
  by destruct (for_each l body) as [o t'].
Qed.

Lemma for_each_network_calls {A} (l : list A) (body : A → M ()) g :
  (∀ x, result (body x) = Return ()) →
  (∀ x, network_calls (trace (body x)) = [g x]) →
  network_calls (trace (for_each l body)) = g <$> l.
Proof.
  intros Hbody Hcalls. induction l as [|x l IH]; [done|]. cbn.
  specialize (Hbody x). specialize (Hcalls x).
  destruct (body x) as [[[]|e] t]; [|done].
  destruct (for_each l body) as [o t']. cbn in *.
  by rewrite network_calls_app, Hcalls, IH.
Qed.

(** [main] never raises: whatever a turn of the loop runs into, a
    failing library call or a record without one of the columns it
    shows, is caught and the loop goes on. *)
Theorem main_never_raises w : result (main py_str w) = Return ().
Proof. apply for_each_result. intros ex. apply run_example_result. Qed.

(** [main] sends six translation requests, one per example and in the
    order of the list, each with the example's query as it stands; a
    failure in one turn does not keep the later requests from being
    sent. *)
Theorem main_sends_every_query w :
  network_calls (trace (main py_str w))
  = (λ ex, (RSEARCH_URL w +:+ "/api/v1/translate",
            PDict [("schema", PStr "products");
                   ("database", PStr "postgres");
                   ("query", PStr ex.2)])) <$> examples.
Proof.
  apply for_each_network_calls.
  - intros ex. apply run_example_result.
  - intros ex. unfold network_calls. rewrite run_example_calls.
    apply search_products_posts.
Qed.

(** A turn whose search raises prints the exception after whatever
    the search printed, and ends normally: the exception goes no
    further. *)
Theorem failed_example_is_reported w title q e :
  result (search_products py_str w q) = Raise e →
  result (run_example py_str w (title, q)) = Return ()
  ∧ trace (run_example py_str w (title, q))
    = EvPrint (newline +:+ "=== Example: " +:+ title +:+ " ===")
      :: trace (search_products py_str w q) ++ [EvPrint ("Error: " +:+ exn_str e)].
Proof.
  intros Hr. unfold run_example, show_results. cbn [fst snd].
  destruct (search_products py_str w q) as [o t]. cbn in Hr. subst o. by cbn.
Qed.

(** A turn whose search finds nothing prints the count and no product
    line. *)
Theorem empty_example_prints_count w title q :
  result (search_products py_str w q) = Return [] →
  trace (run_example py_str w (title, q))
  = EvPrint (newline +:+ "=== Example: " +:+ title +:+ " ===")
    :: trace (search_products py_str w q) ++ [EvPrint "Found 0 products"].
Proof.
  intros Hr. unfold run_example, show_results. cbn [fst snd].
  destruct (search_products py_str w q) as [o t]. cbn in Hr. subst o. cbn.
  reflexivity.
Qed.

(** A turn whose search finds records prints their number and then
    the first record only, by its [name], [product_code] and [price]. *)
Theorem first_record_is_shown w title q product rest name code price :
  result (search_products py_str w q) = Return (product :: rest) →
  product !! "name" = Some name →
  product !! "product_code" = Some code →
  product !! "price" = Some price →
  trace (run_example py_str w (title, q))
  = EvPrint (newline +:+ "=== Example: " +:+ title +:+ " ===")
    :: trace (search_products py_str w q)
    ++ [ EvPrint ("Found " +:+ pretty (S (length rest)) +:+ " products");
         EvPrint ("  - " +:+ format py_str name +:+ " (" +:+ format py_str code
                  +:+ ") - $" +:+ format py_str price) ].
Proof.
  intros Hr Hn Hc Hp. unfold run_example, show_results, record_getitem. cbn [fst snd].
  destruct (search_products py_str w q) as [o t]. cbn in Hr. subst o. cbn.
  rewrite Hn. cbn. rewrite Hc. cbn. rewrite Hp. cbn.
  by rewrite ?app_nil_r, <-?app_assoc.
Qed.

(** When the first record lacks one of the three columns, the turn
    prints the count and then the [KeyError] of the first column
    missing, and ends normally. *)
Theorem missing_column_is_reported w title q product rest key :
  result (search_products py_str w q) = Return (product :: rest) →
  missing_column product = Some key →
  result (run_example py_str w (title, q)) = Return ()
  ∧ trace (run_example py_str w (title, q))
    = EvPrint (newline +:+ "=== Example: " +:+ title +:+ " ===")
      :: trace (search_products py_str w q)
      ++ [ EvPrint ("Found " +:+ pretty (S (length rest)) +:+ " products");
           EvPrint ("Error: '" +:+ key +:+ "'") ].
Proof.
  intros Hr Hk. split; [apply run_example_result|].
  unfold run_example, show_results, record_getitem. cbn [fst snd].
  destruct (search_products py_str w q) as [o t]. cbn in Hr. subst o.
  unfold missing_column in Hk. cbn in Hk.
  repeat case_bool_decide; simplify_eq; cbn.
  all: repeat match goal with
         | H : ?m !! ?k = None |- context [?m !! ?k] => rewrite H; cbn
         | H : ?m !! ?k ≠ None |- context [?m !! ?k] =>
             destruct (m !! k) eqn:?; [cbn|done]
         end.
  all: by rewrite ?app_nil_r, <-?app_assoc.
Qed.

End Properties.

(** * The runs of the examples *)


(** C2 at a store that rejects the statement.  The connection was
    opened, the driver's error reaches the caller, and [conn.close()]
    was not called on the way. *)
Theorem unknown_column_leaves_connection_open :
  result (search_products py_str_plain world_unknown_column q_colour)
  = Raise (mkExn (Psycopg2 ProgrammingError) "column colour does not exist")
  ∧ connection_opened (trace (search_products py_str_plain world_unknown_column q_colour)) = true
  ∧ close_attempted (trace (search_products py_str_plain world_unknown_column q_colour)) = false.
Proof. by vm_compute. Qed.

(** The statement of the [productCode:13w42] run. *)
Lemma statement_text_at_products :
  (∃ wc, service_predicate world_products q_product_code = Some (wc, PList [PStr "13w42"])
         ∧ "SELECT * FROM products WHERE product_code = %s"
           = "SELECT * FROM products WHERE " +:+ format py_str_plain wc)
  ∧ (∀ w' q' sql' params',
       (sql', params') ∈ executed (trace (search_products py_str_plain w' q')) →
       fst <$> service_predicate w' q' = fst <$> service_predicate world_products q_product_code →
       sql' = "SELECT * FROM products WHERE product_code = %s").
Proof.
  apply (statement_text_is_template_and_whereClause py_str_plain world_products
           q_product_code "SELECT * FROM products WHERE product_code = %s"
           (PList [PStr "13w42"])).
  vm_compute. left.
Defined.


(** The run against a store without a matching product. *)
Lemma no_match_returns_empty :
  result (search_products py_str_plain world_no_match q_product_code) = Return [].
Proof.
  apply (no_matching_rows_returns_empty py_str_plain world_no_match q_product_code
           (col_name <$> products_columns)).
  by eapply (Completed _ _ _ _ _ _ _ _ _ _ products_columns []).
Defined.

(** The records of the [productCode:13w42] run. *)
Lemma records_at_products :
  description_reads (trace (search_products py_str_plain world_products q_product_code)) = 1
  ∧ ∃ columns rows,
      completed py_str_plain world_products q_product_code columns rows
      ∧ dict_zip (col_name <$> products_columns) <$> products_rows
        = dict_zip columns <$> rows
      ∧ length (dict_zip (col_name <$> products_columns) <$> products_rows) = length rows
      ∧ ∀ i row,
          rows !! i = Some row →
          ∃ record,
            (dict_zip (col_name <$> products_columns) <$> products_rows) !! i = Some record
            ∧ dom record = list_to_set (take (length row) columns)
            ∧ ∀ k name v,
                columns !! k = Some name →
                row !! k = Some v →
                (∀ j, (k < j)%nat → (j < length row)%nat → columns !! j ≠ Some name) →
                record !! name = Some v.
Proof.
  apply (records_zip_columns_in_store_order py_str_plain world_products q_product_code).
  vm_compute. reflexivity.
Defined.

(** The record of a row under a description with two [id] columns. *)
Lemma two_ids_keep_last :
  ∃ rs,
    result (search_products py_str_plain world_two_ids q_price) = Return rs
    ∧ ∀ i row,
        [[PInt 1; PStr "Widget"; PInt 40]] !! i = Some row →
        length row = length ["id"; "name"; "id"] →
        ∃ record,
          rs !! i = Some record
          ∧ (size record < length row)%nat
          ∧ ∀ k name v,
              ["id"; "name"; "id"] !! k = Some name →
              row !! k = Some v →
              (∀ j, (k < j)%nat → ["id"; "name"; "id"] !! j ≠ Some name) →
              record !! name = Some v.
Proof.
  apply (duplicate_column_keeps_last_value py_str_plain world_two_ids q_price
           ["id"; "name"; "id"] [[PInt 1; PStr "Widget"; PInt 40]]).
  - by eapply (Completed _ _ _ _ _ _ _ _ _ _
                 [mkColumn "id" 23; mkColumn "name" 1043; mkColumn "id" 23]).
  - apply (proj1 (bool_decide_eq_false _)). vm_compute. reflexivity.
Defined.

(** The run against a translation service that answers 500, and the
    run against one that answers 300 with a predicate. *)
Lemma http_500_never_reaches_store :
  (translation_failure (result (search_products py_str_plain world_http_500 q_product_code))
   ∧ store_calls (trace (search_products py_str_plain world_http_500 q_product_code)) = [])
  ∧ ((RaiseForStatus, true)
       ∈ calls (trace (search_products py_str_plain world_status_300 q_product_code))
     ∧ (∃ ok, (Json, ok)
                ∈ calls (trace (search_products py_str_plain world_status_300 q_product_code)))
     ∧ connects (trace (search_products py_str_plain world_status_300 q_product_code))
       = [DB_CONFIG]).
Proof.
  split.
  - apply (proj1 (http_error_never_reaches_store py_str_plain world_http_500 q_product_code)).
    right. eexists. split; [reflexivity|]. cbn. lia.
  - destruct (proj2 (http_error_never_reaches_store py_str_plain world_status_300
                       q_product_code)
                (response 300 "Multiple Choices"
                   (inr (predicate "product_code = %s" [PStr "13w42"]))))
      as (Hstatus & Hjson & Hconnect).
    + reflexivity.
    + cbn. lia.
    + split_and!; [exact Hstatus|exact Hjson|].
      eapply Hconnect; reflexivity.
Defined.

(** The run on a 200 response whose body has no [parameters]. *)
Lemma body_without_parameters_outcome :
  (∀ e, resp_json response_without_parameters = inl e →
        result (search_products py_str_plain world_no_parameters q_price) = Raise e
        ∧ store_calls (trace (search_products py_str_plain world_no_parameters q_price)) = [])
  ∧ (∀ d, resp_json response_without_parameters = inr (PDict d) →
          (list_to_map d : gmap string pyval) !! "whereClause" = None
          ∨ (list_to_map d : gmap string pyval) !! "parameters" = None →
          (∃ e, result (search_products py_str_plain world_no_parameters q_price) = Raise e
                ∧ exn_class_of e = KeyError)
          ∧ ¬ translation_failure
                (result (search_products py_str_plain world_no_parameters q_price))
          ∧ ¬ execution_failure
                (result (search_products py_str_plain world_no_parameters q_price))
          ∧ store_calls (trace (search_products py_str_plain world_no_parameters q_price)) = []).
Proof.
  apply (malformed_body_outcome py_str_plain world_no_parameters q_price
           response_without_parameters).
  - reflexivity.
  - cbn. lia.
Defined.

(** ** Where the wording of the specification and the function part *)

(** C3 at a 200 response whose body has no [parameters]: the caller
    gets [KeyError], which is not a [RequestException]. *)
Lemma missing_parameters_raises_KeyError :
  result (search_products py_str_plain world_no_parameters q_price)
  = Raise (mkExn KeyError "'parameters'")
  ∧ ¬ malformed_body_is_translation_failure py_str_plain world_no_parameters q_price.
Proof.
  split; [by vm_compute|]. intros Hclaim.
  destruct (Hclaim response_without_parameters) as (e & Hr & He).
  - reflexivity.
  - cbn. lia.
  - intros translation [= <-] (wc & ps & _ & Hps). vm_compute in Hps. discriminate Hps.
  - vm_compute in Hr. injection Hr as <-. discriminate He.
Qed.

(** C4 at a 300 response that carries a predicate: the function goes
    on to the store and returns its rows. *)
Lemma status_300_reaches_store :
  result (search_products py_str_plain world_status_300 q_product_code)
  = Return (dict_zip (col_name <$> products_columns) <$> products_rows)
  ∧ connection_opened (trace (search_products py_str_plain world_status_300 q_product_code))
    = true
  ∧ ¬ non_2xx_never_reaches_store py_str_plain world_status_300 q_product_code.
Proof.
  split_and!; [by vm_compute..|]. intros Hclaim.
  destruct Hclaim as [(e & Hr & _) _].
  - right. eexists. split; [reflexivity|]. cbn. lia.
  - vm_compute in Hr. discriminate Hr.
Qed.


(** ** Runs for the further properties *)

(** A record of two distinct columns. *)
Lemma id_and_name_record :
  size (dict_zip ["id"; "name"] [PInt 1; PStr "Widget"]) = 2
  ∧ ∀ i name, ["id"; "name"] !! i = Some name →
      dict_zip ["id"; "name"] [PInt 1; PStr "Widget"] !! name
      = [PInt 1; PStr "Widget"] !! i.
Proof.
  apply (dict_zip_distinct_columns ["id"; "name"] [PInt 1; PStr "Widget"]).
  - apply (bool_decide_unpack _). vm_compute. exact I.
  - reflexivity.
Defined.

(** What the [productCode:13w42] run prints. *)
Lemma products_run_prints :
  prints (trace (search_products py_str_plain world_products q_product_code))
  = [ "Query: " +:+ q_product_code; "SQL: " +:+ format py_str_plain (PStr "product_code = %s");
      "Params: " +:+ format py_str_plain (PList [PStr "13w42"]); "---" ]
    ++ prints (except_output
                 (result (search_products py_str_plain world_products q_product_code))).
Proof.
  apply (translated_run_prints py_str_plain world_products q_product_code).
  reflexivity.
Defined.

(** The run against a translation service that cannot be reached. *)
Lemma unreachable_service_outcome :
  result (search_products py_str_plain world_unreachable q_price)
  = Raise (mkExn (Requests ConnectionError) "Connection refused")
  ∧ calls (trace (search_products py_str_plain world_unreachable q_price))
    = [(Post (translate_url world_unreachable) (request_body q_price), false)]
  ∧ prints (trace (search_products py_str_plain world_unreachable q_price))
    = if isinstance_RequestException (mkExn (Requests ConnectionError) "Connection refused")
      then ["rsearch error: " +:+ "Connection refused"]
      else if isinstance_psycopg2_Error (mkExn (Requests ConnectionError) "Connection refused")
      then ["Database error: " +:+ "Connection refused"]
      else [].
Proof.
  apply (post_failure_outcome py_str_plain world_unreachable q_price).
  reflexivity.
Defined.

(** The run on a body that is a JSON array. *)
Lemma array_body_outcome :
  (∃ e, result (search_products py_str_plain world_array_body q_price) = Raise e
        ∧ exn_class_of e = TypeError)
  ∧ prints (trace (search_products py_str_plain world_array_body q_price))
    = ["Query: " +:+ q_price]
  ∧ store_calls (trace (search_products py_str_plain world_array_body q_price)) = [].
Proof.
  apply (non_object_body_raises_TypeError py_str_plain world_array_body q_price
           (response 200 "OK" (inr (PList [PStr "price >= %s"; PInt 100])))
           (PList [PStr "price >= %s"; PInt 100])).
  - reflexivity.
  - reflexivity.
  - reflexivity.
  - intros d. discriminate.
Defined.

(** The [productCode:13w42] run returns, and has closed its connection. *)
Lemma products_run_closes :
  (ConnClose, true) ∈ calls (trace (search_products py_str_plain world_products q_product_code)).
Proof.
  apply (proj2 (connection_closed_iff_returned py_str_plain world_products q_product_code)).
  eexists. vm_compute. reflexivity.
Defined.

(** The run against a statement without a result set. *)
Lemma no_description_outcome :
  (∃ e, result (search_products py_str_plain world_no_description q_product_code) = Raise e
        ∧ exn_class_of e = TypeError)
  ∧ description_reads (trace (search_products py_str_plain world_no_description
                                q_product_code)) = 1
  ∧ (∀ ok, (Fetchall, ok) ∉ calls (trace (search_products py_str_plain world_no_description
                                             q_product_code)))
  ∧ close_attempted (trace (search_products py_str_plain world_no_description
                              q_product_code)) = false.
Proof.
  eapply (missing_description_raises_TypeError py_str_plain world_no_description
            q_product_code); reflexivity.
Defined.

(** A turn of the loop against a translation service that answers 500. *)
Lemma http_500_example :
  result (run_example py_str_plain world_http_500 ("Range query", "rodLength:[50 TO 200]"))
  = Return ()
  ∧ trace (run_example py_str_plain world_http_500 ("Range query", "rodLength:[50 TO 200]"))
    = EvPrint (newline +:+ "=== Example: " +:+ "Range query" +:+ " ===")
      :: trace (search_products py_str_plain world_http_500 "rodLength:[50 TO 200]")
      ++ [EvPrint ("Error: " +:+ "500 Server Error: Internal Server Error for url: http://localhost:8080/api/v1/translate")].
Proof.
  apply (failed_example_is_reported py_str_plain world_http_500 "Range query"
           "rodLength:[50 TO 200]"
           (mkExn (Requests HTTPError)
              "500 Server Error: Internal Server Error for url: http://localhost:8080/api/v1/translate")).
  reflexivity.
Defined.

(** A turn of the loop against a store without a matching product. *)
Lemma no_match_example :
  trace (run_example py_str_plain world_no_match ("Simple field search", q_product_code))
  = EvPrint (newline +:+ "=== Example: " +:+ "Simple field search" +:+ " ===")
    :: trace (search_products py_str_plain world_no_match q_product_code)
    ++ [EvPrint "Found 0 products"].
Proof.
  apply (empty_example_prints_count py_str_plain world_no_match).
  reflexivity.
Defined.

(** A turn of the loop against the store with two matching products. *)
Lemma products_example :
  trace (run_example py_str_plain world_products ("Simple field search", q_product_code))
  = EvPrint (newline +:+ "=== Example: " +:+ "Simple field search" +:+ " ===")
    :: trace (search_products py_str_plain world_products q_product_code)
    ++ [ EvPrint ("Found " +:+ pretty 2 +:+ " products");
         EvPrint ("  - " +:+ "Widget" +:+ " (" +:+ "13w42" +:+ ") - $" +:+ "99.50") ].
Proof.
  apply (first_record_is_shown py_str_plain world_products "Simple field search"
           q_product_code
           (dict_zip (col_name <$> products_columns)
              [PInt 1; PStr "13w42"; PStr "Widget"; PObj "99.50"])
           [dict_zip (col_name <$> products_columns)
              [PInt 7; PStr "13w42"; PStr "Widget Pro"; PObj "149.00"]]
           (PStr "Widget") (PStr "13w42") (PObj "99.50")).
  - vm_compute. reflexivity.
  - vm_compute. reflexivity.
  - vm_compute. reflexivity.
  - vm_compute. reflexivity.
Defined.

(** A turn of the loop on records without a [product_code] column. *)
Lemma two_ids_example :
  result (run_example py_str_plain world_two_ids ("Comparison operator", q_price)) = Return ()
  ∧ trace (run_example py_str_plain world_two_ids ("Comparison operator", q_price))
    = EvPrint (newline +:+ "=== Example: " +:+ "Comparison operator" +:+ " ===")
      :: trace (search_products py_str_plain world_two_ids q_price)
      ++ [ EvPrint ("Found " +:+ pretty 1 +:+ " products");
           EvPrint ("Error: '" +:+ "product_code" +:+ "'") ].
Proof.
  apply (missing_column_is_reported py_str_plain world_two_ids "Comparison operator" q_price
           (dict_zip ["id"; "name"; "id"] [PInt 1; PStr "Widget"; PInt 40]) []
           "product_code").
  - vm_compute. reflexivity.
  - vm_compute. reflexivity.
Defined.
